(** * sempler: the packaging manifest [setup.py]

    The repository consists of one file, [setup.py], a single call of
    [distutils.core.setup] with eleven keyword arguments.  Ten of them are
    literals; [long_description] is [open('README.txt').read()].

    The manifest is embedded as a computation in a state-and-exception
    monad over a world made of the file system it reads and the list of
    [setup] calls made so far.  It is embedded twice: first under an
    interpreter in which the import has succeeded, [setup] returns and
    files come as text, which is enough for what the call receives; then,
    in the module [Python], under any interpreter, for how an evaluation
    ends and what it depends on. *)

From Stdlib Require Import Ascii String NArith.
From stdpp Require Import gmap strings list fin_maps.

Open Scope string_scope.

(** ** Python values occurring in the manifest *)

(** Every argument of the call is a [str] or a list of [str]. *)
Inductive pyval : Type :=
  | PyStr (s : string)
  | PyList (items : list string).

#[global] Instance pyval_eq_dec : EqDecision pyval.
Proof. solve_decision. Defined.

(** The exceptions the builtins used by the manifest raise. *)
Inductive exn : Type :=
  | FileNotFoundError (filename : string)
  | PermissionError (filename : string)
  | UnicodeDecodeError (filename : string).

#[global] Instance exn_eq_dec : EqDecision exn.
Proof. solve_decision. Defined.

(** ** The world *)

(** What a path of the file system holds when the manifest is evaluated. *)
Inductive node : Type :=
  | Absent
  | Forbidden
  | Garbled
  | Text (contents : string).

(** The keyword arguments of one call, as the dict the callee receives. *)
Abbreviation kwargs := (gmap string pyval).

Record world : Type := World {
  files : string -> node;
  registered : list kwargs
}.

(** A file object: the name it was opened under and, when the bytes decode,
    the text behind it. *)
Record file : Type := File {
  f_name : string;
  f_stream : option string
}.

(** ** Computations *)

Inductive completion (A : Type) : Type :=
  | Return (a : A)
  | Raise (e : exn).
Arguments Return {A} a.
Arguments Raise {A} e.

Definition M (A : Type) : Type := world -> completion A * world.

Definition pure {A} (a : A) : M A := fun w => (Return a, w).

Definition raise {A} (e : exn) : M A := fun w => (Raise e, w).

Definition bind {A B} (m : M A) (k : A -> M B) : M B :=
  fun w =>
    match m w with
    | (Return a, w') => k a w'
    | (Raise e, w') => (Raise e, w')
    end.

Declare Scope py_scope.
Delimit Scope py_scope with py.
Notation "'do' x <~ m ;; k" := (bind m (fun x => k))
  (at level 10, x name, m at level 99, k at level 200) : py_scope.

(** ** Builtins *)

(** [open(path)], text mode, for reading. *)
Definition open (path : string) : M file :=
  fun w =>
    match files w path with
    | Absent => (Raise (FileNotFoundError path), w)
    | Forbidden => (Raise (PermissionError path), w)
    | Garbled => (Return (File path None), w)
    | Text s => (Return (File path (Some s)), w)
    end.

(** [f.read()]: the whole text. *)
Definition read (f : file) : M string :=
  match f_stream f with
  | Some s => pure s
  | None => raise (UnicodeDecodeError (f_name f))
  end.

(** [distutils.core.setup], called with keyword arguments only, is library
    code; of its behaviour the model keeps that it has been called, and
    with which arguments. *)
Definition setup (attrs : kwargs) : M unit :=
  fun w => (Return tt, World (files w) (registered w ++ [attrs])).

(** ** The manifest *)

(** The keyword arguments are evaluated left to right, then the call is
    made.  The import of [setup] in the first line is taken to have
    succeeded. *)
Definition setup_py : M unit :=
  (do name <~ pure (PyStr "sempler") ;;
   do version <~ pure (PyStr "0.1.1") ;;
   do author <~ pure (PyStr "Juan L Gamella") ;;
   do author_email <~ pure (PyStr "juangamella@gmail.com") ;;
   do packages <~ pure (PyList ["sempler"; "sempler.test"]) ;;
   do scripts <~ pure (PyList []) ;;
   do url <~ pure (PyStr "http://pypi.python.org/pypi/sempler/") ;;
   do license <~ pure (PyStr "LICENSE.txt") ;;
   do description <~
     pure (PyStr "Sample from general structural causal models (SCMs)") ;;
   do long_description <~
     (do f <~ open "README.txt" ;; do s <~ read f ;; pure (PyStr s)) ;;
   do install_requires <~
     pure (PyList ["numpy==1.18.3"; "networkx==2.2"; "matplotlib==3.2.1"]) ;;
   setup (<["name" := name]>
          (<["version" := version]>
          (<["author" := author]>
          (<["author_email" := author_email]>
          (<["packages" := packages]>
          (<["scripts" := scripts]>
          (<["url" := url]>
          (<["license" := license]>
          (<["description" := description]>
          (<["long_description" := long_description]>
          (<["install_requires" := install_requires]> ∅))))))))))))%py.

(** Evaluating the manifest in a fresh interpreter over the file system
    [fs]: how it completes and the calls of [setup] it made. *)
Definition run (fs : string -> node) : completion unit * list kwargs :=
  let (c, w) := setup_py (World fs []) in (c, registered w).

Definition outcome (fs : string -> node) : completion unit := fst (run fs).
Definition calls (fs : string -> node) : list kwargs := snd (run fs).

(** A file system holding nothing but [README.txt]. *)
Definition only_readme (n : node) : string -> node :=
  fun path => if decide (path = "README.txt") then n else Absent.

(** ** Reading the declared strings *)

(** The pieces of [s] between the occurrences of [sep], as [str.split]
    gives them. *)
Fixpoint split_on (sep : ascii) (s : string) : list string :=
  match s with
  | EmptyString => [EmptyString]
  | String c rest =>
      if decide (c = sep) then EmptyString :: split_on sep rest
      else match split_on sep rest with
           | [] => [String c EmptyString]
           | piece :: pieces => String c piece :: pieces
           end
  end.

(** [sep.join(pieces)]. *)
Fixpoint join (sep : string) (pieces : list string) : string :=
  match pieces with
  | [] => EmptyString
  | [piece] => piece
  | piece :: rest => piece +:+ sep +:+ join sep rest
  end.

(** The package a dotted package name is nested in: the name without its
    last component.  A name without a dot has none. *)
Definition parent (package : string) : option string :=
  match split_on "." package with
  | [] | [_] => None
  | components => Some (join "." (removelast components))
  end.

Definition is_digit (c : ascii) : bool :=
  bool_decide (48 <= nat_of_ascii c <= 57)%nat.

Fixpoint all_digits (s : string) : bool :=
  match s with
  | EmptyString => true
  | String c rest => is_digit c && all_digits rest
  end.

(** A numeric identifier of a semantic version: digits only, at least one,
    and no leading zero unless it is the single digit 0. *)
Definition numeric_identifier (s : string) : bool :=
  match s with
  | EmptyString => false
  | String c rest =>
      is_digit c && all_digits rest
      && (bool_decide (c <> "0"%char) || bool_decide (rest = EmptyString))
  end.

Fixpoint decimal_value (acc : N) (s : string) : N :=
  match s with
  | EmptyString => acc
  | String c rest => decimal_value (10 * acc + (N_of_ascii c - 48))%N rest
  end.

(** A semantic version without pre-release or build part:
    [major.minor.patch], three numeric identifiers. *)
Definition parse_semver (s : string) : option (N * N * N) :=
  match split_on "." s with
  | [major; minor; patch] =>
      if numeric_identifier major && numeric_identifier minor
         && numeric_identifier patch
      then Some (decimal_value 0 major, decimal_value 0 minor,
                 decimal_value 0 patch)
      else None
  | _ => None
  end.

(** Characters that end the project name in a requirement string. *)
Definition is_specifier_char (c : ascii) : bool :=
  bool_decide (c ∈ ["="; "<"; ">"; "!"; "~"; ","; ";"; " "; "["; "@"]%char).

(** The longest prefix of [s] without a specifier character, and the rest. *)
Fixpoint split_name (s : string) : string * string :=
  match s with
  | EmptyString => (EmptyString, EmptyString)
  | String c rest =>
      if is_specifier_char c then (EmptyString, s)
      else let (name, spec) := split_name rest in (String c name, spec)
  end.

(** A release segment: digits and dots only (so no wildcard, no second
    clause, no marker), starting with a digit. *)
Fixpoint release_chars (s : string) : bool :=
  match s with
  | EmptyString => true
  | String c rest =>
      (is_digit c || bool_decide (c = "."%char)) && release_chars rest
  end.

(** A requirement pinned to one version: [name==release].  Gives the name
    and the release; [None] for any other form of requirement. *)
Definition pinned (requirement : string) : option (string * string) :=
  match split_name requirement with
  | (String n ame, String "=" (String "=" (String d rest))) =>
      if is_digit d && release_chars rest
      then Some (String n ame, String d rest)
      else None
  | _ => None
  end.

(** The expression [open('README.txt').read()] on its own. *)
Definition read_readme : M string :=
  (do f <~ open "README.txt" ;; read f)%py.

(** The keywords of the call in the manifest. *)
Definition keywords : gset string :=
  {[ "name"; "version"; "author"; "author_email"; "packages"; "scripts";
     "url"; "license"; "description"; "long_description";
     "install_requires" ]}.

(** The first component of a dotted package name. *)
Definition top_level (package : string) : string :=
  default EmptyString (head (split_on "." package)).

(** The project names of the requirements of the form [name==release]. *)
Definition required_projects (requirements : list string) : list string :=
  (omap pinned requirements).*1.

(** ** The manifest under any interpreter

    The definitions above fix an interpreter: the import of the first
    line has succeeded, [setup] returns and writes nothing, and a file
    comes with its text.  The module [Python] fixes none of the three.  An
    interpreter is given by what [from distutils.core import setup] yields
    and by the decoder of its preferred encoding, which [open] uses when,
    as here, it is called without [encoding]; a file holds bytes; [setup]
    is any operation on the file system that returns or raises. *)

(** Text mode with [newline=None]: [\r\n] and [\r] are read as [\n]. *)
Fixpoint universal_newlines (s : string) : string :=
  match s with
  | EmptyString => EmptyString
  | String "013" rest =>
      String "010"
        match rest with
        | String "010" rest' => universal_newlines rest'
        | _ => universal_newlines rest
        end
  | String c rest => String c (universal_newlines rest)
  end.

Module Python.

Inductive exc : Type :=
  | ModuleNotFoundError (name : string)
  | FileNotFoundError (filename : string)
  | PermissionError (filename : string)
  | IsADirectoryError (filename : string)
  | UnicodeDecodeError (object : list ascii)
  | SystemExit (code : string)
  | DistutilsError (message : string).

(** Where an exception was raised: in the import machinery, in [open], in
    [read], in [setup], or by a [raise] statement of the manifest. *)
Inductive origin : Type :=
  | InImport
  | InOpen
  | InRead
  | InSetup
  | InManifest.

(** What a path holds. *)
Inductive entry : Type :=
  | Missing
  | Denied
  | Directory
  | Regular (data : list ascii).

Abbreviation disk := (string -> entry).

(** The state of an evaluation: the file system, and the argument dicts of
    the calls of [setup] made so far. *)
Record machine : Type := Machine {
  disk_of : disk;
  called : list kwargs
}.

(** A function of the library, called with keyword arguments: it may
    change the file system, and returns or raises. *)
Definition callable : Type := kwargs -> disk -> option exc * disk.

Record interpreter : Type := Interpreter {
  distutils_core : exc + callable;
  decode : list ascii -> option string
}.

Record file : Type := File {
  name : string;
  buffer : list ascii
}.

Inductive outcome (A : Type) : Type :=
  | Returned (a : A)
  | Raised (o : origin) (e : exc).
Arguments Returned {A} a.
Arguments Raised {A} o e.

Definition P (A : Type) : Type := machine -> outcome A * machine.

Definition pure {A} (a : A) : P A := fun m => (Returned a, m).

(** The [raise] statement. *)
Definition raise {A} (e : exc) : P A := fun m => (Raised InManifest e, m).

Definition bind {A B} (p : P A) (k : A -> P B) : P B :=
  fun m =>
    match p m with
    | (Returned a, m') => k a m'
    | (Raised o e, m') => (Raised o e, m')
    end.

Declare Scope python_scope.
Delimit Scope python_scope with python.
Notation "'do' x <~ p ;; k" := (bind p (fun x => k))
  (at level 10, x name, p at level 99, k at level 200) : python_scope.

(** [from distutils.core import setup]. *)
Definition import_setup (py : interpreter) : P callable :=
  fun m =>
    match distutils_core py with
    | inl e => (Raised InImport e, m)
    | inr setup => (Returned setup, m)
    end.

(** [open(path)]. *)
Definition open (path : string) : P file :=
  fun m =>
    match disk_of m path with
    | Missing => (Raised InOpen (FileNotFoundError path), m)
    | Denied => (Raised InOpen (PermissionError path), m)
    | Directory => (Raised InOpen (IsADirectoryError path), m)
    | Regular data => (Returned (File path data), m)
    end.

(** [f.read()]. *)
Definition read (py : interpreter) (f : file) : P string :=
  fun m =>
    match decode py (buffer f) with
    | Some text => (Returned (universal_newlines text), m)
    | None => (Raised InRead (UnicodeDecodeError (buffer f)), m)
    end.

(** A call of a library function with keyword arguments only. *)
Definition call (f : callable) (attrs : kwargs) : P unit :=
  fun m =>
    let (raised, d) := f attrs (disk_of m) in
    let m' := Machine d (called m ++ [attrs]) in
    match raised with
    | None => (Returned tt, m')
    | Some e => (Raised InSetup e, m')
    end.

(** [setup.py]. *)
Definition setup_py (py : interpreter) : P unit :=
  (do setup <~ import_setup py ;;
   do name <~ pure (PyStr "sempler") ;;
   do version <~ pure (PyStr "0.1.1") ;;
   do author <~ pure (PyStr "Juan L Gamella") ;;
   do author_email <~ pure (PyStr "juangamella@gmail.com") ;;
   do packages <~ pure (PyList ["sempler"; "sempler.test"]) ;;
   do scripts <~ pure (PyList []) ;;
   do url <~ pure (PyStr "http://pypi.python.org/pypi/sempler/") ;;
   do license <~ pure (PyStr "LICENSE.txt") ;;
   do description <~
     pure (PyStr "Sample from general structural causal models (SCMs)") ;;
   do long_description <~
     (do f <~ open "README.txt" ;; do s <~ read py f ;; pure (PyStr s)) ;;
   do install_requires <~
     pure (PyList ["numpy==1.18.3"; "networkx==2.2"; "matplotlib==3.2.1"]) ;;
   call setup
     (<["name" := name]>
      (<["version" := version]>
      (<["author" := author]>
      (<["author_email" := author_email]>
      (<["packages" := packages]>
      (<["scripts" := scripts]>
      (<["url" := url]>
      (<["license" := license]>
      (<["description" := description]>
      (<["long_description" := long_description]>
      (<["install_requires" := install_requires]> ∅))))))))))))%python.

(** The expression [open('README.txt').read()] on its own. *)
Definition read_readme (py : interpreter) : P string :=
  (do f <~ open "README.txt" ;; read py f)%python.

(** One evaluation of the manifest by [py] over the file system [d]. *)
Definition run (py : interpreter) (d : disk) : outcome unit * machine :=
  setup_py py (Machine d []).

(** ASCII, the preferred encoding under the C locale. *)
Definition ascii_decoder (data : list ascii) : option string :=
  if forallb (fun c => bool_decide (nat_of_ascii c < 128)%nat) data
  then Some (string_of_list_ascii data)
  else None.

(** ISO 8859-1: every byte is the character of that code point. *)
Definition latin1_decoder (data : list ascii) : option string :=
  Some (string_of_list_ascii data).

(** A [setup] that returns and writes nothing. *)
Definition quiet_setup : callable := fun _ d => (None, d).

(** A [setup] that exits, as [distutils] does when the command line names
    no command. *)
Definition exiting_setup : callable :=
  fun _ d => (Some (SystemExit "error: no commands supplied"), d).

(** A file system holding nothing but [README.txt]. *)
Definition only_readme (e : entry) : disk :=
  fun path => if decide (path = "README.txt") then e else Missing.

End Python.

(** The bytes 63 61 66 E9. *)
Definition cafe : list ascii := ["c"; "a"; "f"; "233"]%char.

Definition python_ascii : Python.interpreter :=
  Python.Interpreter (inr Python.quiet_setup) Python.ascii_decoder.

Definition python_latin1 : Python.interpreter :=
  Python.Interpreter (inr Python.quiet_setup) Python.latin1_decoder.

Definition python_exiting : Python.interpreter :=
  Python.Interpreter (inr Python.exiting_setup) Python.latin1_decoder.

(** A file system with the same [README.txt] as [Python.only_readme] gives,
    and [LICENSE.txt] beside it. *)
Definition with_license (e : Python.entry) : Python.disk :=
  fun path =>
    if decide (path = "LICENSE.txt") then Python.Regular []
    else Python.only_readme e path.

(** The file system of the first model that [py] reads off [d]: each file
    with the text [py] decodes it to. *)
Definition decoded (py : Python.interpreter) (d : Python.disk)
    : string -> node :=
  fun path =>
    match d path with
    | Python.Missing => Absent
    | Python.Denied | Python.Directory => Forbidden
    | Python.Regular data =>
        match Python.decode py data with
        | Some text => Text (universal_newlines text)
        | None => Garbled
        end
    end.

(** A text the examples use for [README.txt]. *)
Definition sample_readme : string := "sempler: sampling from SCMs".

Definition sample_fs : string -> node := only_readme (Text sample_readme).

(** The arguments of the call made over [sample_fs]. *)
Definition sample_kw : kwargs := default ∅ (head (calls sample_fs)).

(** A fresh interpreter over a [README.txt] whose bytes do not decode. *)
Definition garbled_world : world := World (only_readme Garbled) [].

(** * Properties *)

(** ** Running the manifest *)

(** Unfold one run and split on what [README.txt] holds. *)
Ltac run_cases fs :=
  unfold calls, outcome, run, setup_py, read_readme, bind, pure, raise,
    open, read, setup;
  simpl;
  let text := fresh "text" in
  let Hreadme := fresh "Hreadme" in
  destruct (fs "README.txt") as [| | |text] eqn:Hreadme; simpl.

(** A call in the list of calls made by a run: there is none after an
    exception, and one otherwise. *)
Ltac the_call H :=
  first [ apply elem_of_nil in H; contradiction
        | apply list_elem_of_singleton in H; subst ].

Ltac by_evaluation := vm_compute; reflexivity.

(** Over a readable [README.txt] the manifest makes a call. *)
Lemma sample_called : sample_kw ∈ calls sample_fs.
Proof. apply list_elem_of_singleton. reflexivity. Qed.

(** The keywords of a call are those written in the manifest. *)
Lemma call_keywords (fs : string -> node) (kw : kwargs) :
  kw ∈ calls fs -> dom kw = keywords.
Proof.
  run_cases fs; intros Hcall; the_call Hcall.
  apply (bool_decide_unpack _). vm_compute. exact I.
Qed.

(** ** The readers of declared strings *)

(** Joining the pieces of a split gives the string back. *)
Lemma join_split_on (sep : ascii) (s : string) :
  join (String sep EmptyString) (split_on sep s) = s.
Proof.
  induction s as [|c rest IH]; [reflexivity|].
  simpl. destruct (decide (c = sep)) as [->|Hc].
  - destruct (split_on sep rest) as [|piece pieces] eqn:Hsplit.
    + destruct rest; simpl in Hsplit; [discriminate|].
      destruct (decide (a = sep)); [discriminate|].
      destruct (split_on sep rest); discriminate.
    + change (join (String sep "") ("" :: piece :: pieces))
        with (String sep (join (String sep "") (piece :: pieces))).
      rewrite IH. reflexivity.
  - destruct (split_on sep rest) as [|piece pieces] eqn:Hsplit.
    + destruct rest; simpl in Hsplit; [discriminate|].
      destruct (decide (a = sep)); [discriminate|].
      destruct (split_on sep rest); discriminate.
    + destruct pieces as [|next more].
      * simpl in *. rewrite IH. reflexivity.
      * change (join (String sep "") (String c piece :: next :: more))
          with (String c (join (String sep "") (piece :: next :: more))).
        rewrite IH. reflexivity.
Qed.

(** What [parse_semver] refuses: a leading zero, a missing or a fourth
    component, an empty component, a pre-release and a build suffix. *)
Example parse_semver_refuses :
  parse_semver <$> ["01.1.1"; "0.1"; "0.1.1.2"; "0..1"; "0.1.1-rc1";
                    "0.1.1+build"; "v0.1.1"]
  = [None; None; None; None; None; None; None].
Proof. reflexivity. Qed.

Example parse_semver_reads : parse_semver "10.21.13" = Some (10, 21, 13)%N.
Proof. reflexivity. Qed.

(** What [pinned] refuses: a range, a bare name, a wildcard, two clauses,
    arbitrary equality, an empty release and a missing name. *)
Example pinned_refuses :
  pinned <$> ["numpy>=1.18.3"; "numpy"; "numpy==1.*"; "numpy==1.18,<2";
              "numpy===1.18.3"; "numpy=="; "==1.18.3"; "numpy~=1.18"]
  = [None; None; None; None; None; None; None; None].
Proof. reflexivity. Qed.

(** ** Name and version *)

(** C1: the call of [setup] receives the name 'sempler' and the version
    '0.1.1' as its [name] and [version] arguments. *)
Theorem name_and_version (fs : string -> node) (kw : kwargs) :
  kw ∈ calls fs ->
  kw !! "name" = Some (PyStr "sempler")
  /\ kw !! "version" = Some (PyStr "0.1.1").
Proof.
  run_cases fs; intros Hcall; the_call Hcall.
  split; by_evaluation.
Qed.

Lemma name_and_version_witness :
  sample_kw ∈ calls sample_fs
  /\ sample_kw !! "name" = Some (PyStr "sempler")
  /\ sample_kw !! "version" = Some (PyStr "0.1.1").
Proof.
  split; [exact sample_called|].
  exact (name_and_version sample_fs sample_kw sample_called).
Defined.

(** C7: the declared version is a semantic version: it is
    [major.minor.patch] for three numeric identifiers (digits only, hence
    no pre-release or build suffix, and no leading zero), here 0, 1, 1. *)
Theorem version_is_semver (fs : string -> node) (kw : kwargs) :
  kw ∈ calls fs ->
  exists version major minor patch,
    kw !! "version" = Some (PyStr version)
    /\ version = major +:+ "." +:+ minor +:+ "." +:+ patch
    /\ numeric_identifier major = true
    /\ numeric_identifier minor = true
    /\ numeric_identifier patch = true
    /\ parse_semver version = Some (0, 1, 1)%N.
Proof.
  run_cases fs; intros Hcall; the_call Hcall.
  exists "0.1.1", "0", "1", "1".
  repeat split; by_evaluation.
Qed.

Lemma version_is_semver_witness :
  sample_kw ∈ calls sample_fs
  /\ exists version major minor patch,
       sample_kw !! "version" = Some (PyStr version)
       /\ version = major +:+ "." +:+ minor +:+ "." +:+ patch
       /\ numeric_identifier major = true
       /\ numeric_identifier minor = true
       /\ numeric_identifier patch = true
       /\ parse_semver version = Some (0, 1, 1)%N.
Proof.
  split; [exact sample_called|].
  exact (version_is_semver sample_fs sample_kw sample_called).
Defined.

(** ** Packages *)

(** C2: the package list is not empty and has exactly two entries, the main
    package 'sempler' and the test package 'sempler.test' nested in it. *)
Theorem packages_declared (fs : string -> node) (kw : kwargs) :
  kw ∈ calls fs ->
  exists main test,
    kw !! "packages" = Some (PyList [main; test])
    /\ [main; test] <> []
    /\ main = "sempler"
    /\ test = "sempler.test"
    /\ parent main = None
    /\ parent test = Some main.
Proof.
  run_cases fs; intros Hcall; the_call Hcall.
  exists "sempler", "sempler.test".
  repeat split; try by_evaluation. discriminate.
Qed.

Lemma packages_declared_witness :
  sample_kw ∈ calls sample_fs
  /\ exists main test,
       sample_kw !! "packages" = Some (PyList [main; test])
       /\ [main; test] <> []
       /\ main = "sempler"
       /\ test = "sempler.test"
       /\ parent main = None
       /\ parent test = Some main.
Proof.
  split; [exact sample_called|].
  exact (packages_declared sample_fs sample_kw sample_called).
Defined.

(** C9: the package list is closed under taking the parent package: the
    parent of every dotted name in the list is in the list. *)
Theorem packages_prefix_closed
    (fs : string -> node) (kw : kwargs) (names : list string)
    (package enclosing : string) :
  kw ∈ calls fs ->
  kw !! "packages" = Some (PyList names) ->
  package ∈ names ->
  parent package = Some enclosing ->
  enclosing ∈ names.
Proof.
  run_cases fs; intros Hcall; the_call Hcall.
  vm_compute. intros Hnames; injection Hnames as <-.
  intros Hin Hparent.
  apply elem_of_cons in Hin as [-> | Hin].
  { vm_compute in Hparent. discriminate. }
  apply list_elem_of_singleton in Hin as ->.
  vm_compute in Hparent. injection Hparent as <-.
  apply elem_of_cons. left. reflexivity.
Qed.

Lemma packages_prefix_closed_witness :
  sample_kw ∈ calls sample_fs
  /\ sample_kw !! "packages" = Some (PyList ["sempler"; "sempler.test"])
  /\ "sempler.test" ∈ ["sempler"; "sempler.test"]
  /\ parent "sempler.test" = Some "sempler"
  /\ "sempler" ∈ ["sempler"; "sempler.test"].
Proof.
  assert (Hnames :
    sample_kw !! "packages" = Some (PyList ["sempler"; "sempler.test"]))
    by (vm_compute; reflexivity).
  assert (Hin : "sempler.test" ∈ ["sempler"; "sempler.test"])
    by (apply elem_of_cons; right; apply elem_of_cons; left; reflexivity).
  assert (Hparent : parent "sempler.test" = Some "sempler")
    by (vm_compute; reflexivity).
  repeat split; try assumption; [exact sample_called|].
  exact (packages_prefix_closed sample_fs sample_kw _ _ _
           sample_called Hnames Hin Hparent).
Defined.

(** ** Dependencies *)

(** C3: the call declares exactly three requirements, each of the form
    [name==release]: numpy 1.18.3, networkx 2.2 and matplotlib 3.2.1. *)
Theorem requirements_pinned (fs : string -> node) (kw : kwargs) :
  kw ∈ calls fs ->
  exists requirements,
    kw !! "install_requires" = Some (PyList requirements)
    /\ length requirements = 3
    /\ requirements = ["numpy==1.18.3"; "networkx==2.2"; "matplotlib==3.2.1"]
    /\ pinned <$> requirements =
         [Some ("numpy", "1.18.3"); Some ("networkx", "2.2");
          Some ("matplotlib", "3.2.1")].
Proof.
  run_cases fs; intros Hcall; the_call Hcall.
  eexists. split; [by_evaluation|].
  repeat split; by_evaluation.
Qed.

Lemma requirements_pinned_witness :
  sample_kw ∈ calls sample_fs
  /\ exists requirements,
       sample_kw !! "install_requires" = Some (PyList requirements)
       /\ length requirements = 3
       /\ requirements =
            ["numpy==1.18.3"; "networkx==2.2"; "matplotlib==3.2.1"]
       /\ pinned <$> requirements =
            [Some ("numpy", "1.18.3"); Some ("networkx", "2.2");
             Some ("matplotlib", "3.2.1")].
Proof.
  split; [exact sample_called|].
  exact (requirements_pinned sample_fs sample_kw sample_called).
Defined.

(** ** Scripts and entry points *)

(** C4: the [scripts] argument is the empty list and the call has no
    [entry_points] argument. *)
Theorem no_scripts_no_entry_points (fs : string -> node) (kw : kwargs) :
  kw ∈ calls fs ->
  kw !! "scripts" = Some (PyList [])
  /\ kw !! "entry_points" = None
  /\ "entry_points" ∉ dom kw.
Proof.
  intros Hcall.
  assert (Hfree : "entry_points" ∉ dom kw).
  { rewrite (call_keywords fs kw Hcall).
    apply (bool_decide_unpack _). vm_compute. exact I. }
  split; [|split; [apply not_elem_of_dom|]; exact Hfree].
  revert Hcall. run_cases fs; intros Hcall; the_call Hcall.
  by_evaluation.
Qed.

Lemma no_scripts_no_entry_points_witness :
  sample_kw ∈ calls sample_fs
  /\ sample_kw !! "scripts" = Some (PyList [])
  /\ sample_kw !! "entry_points" = None
  /\ "entry_points" ∉ dom sample_kw.
Proof.
  split; [exact sample_called|].
  exact (no_scripts_no_entry_points sample_fs sample_kw sample_called).
Defined.

(** ** The long description *)

(** C5: the [long_description] argument is the whole text of
    [README.txt] as [open('README.txt').read()] gives it when the manifest
    is evaluated; no literal is the value of that argument over every
    file system. *)
Theorem long_description_from_readme (fs : string -> node) (text : string) :
  fs "README.txt" = Text text ->
  fst (read_readme (World fs [])) = Return text
  /\ (exists kw,
        run fs = (Return tt, [kw])
        /\ kw !! "long_description" = Some (PyStr text))
  /\ ~ (exists literal, forall fs' kw',
          kw' ∈ calls fs' -> kw' !! "long_description" = Some (PyStr literal)).
Proof.
  intros Htext. split; [|split].
  - unfold read_readme, bind, open, read, pure; simpl. rewrite Htext.
    reflexivity.
  - revert Htext. run_cases fs; intros Htext; try discriminate.
    injection Htext as ->. eexists. split; [reflexivity|by_evaluation].
  - intros [literal Hliteral].
    assert (H1 : only_readme (Text "a") "README.txt" = Text "a")
      by reflexivity.
    assert (H2 : only_readme (Text "b") "README.txt" = Text "b")
      by reflexivity.
    pose proof (Hliteral (only_readme (Text "a")) _
                  ltac:(apply list_elem_of_singleton; reflexivity)) as Ha.
    pose proof (Hliteral (only_readme (Text "b")) _
                  ltac:(apply list_elem_of_singleton; reflexivity)) as Hb.
    vm_compute in Ha. vm_compute in Hb. congruence.
Qed.

Lemma long_description_from_readme_witness :
  sample_fs "README.txt" = Text sample_readme
  /\ fst (read_readme (World sample_fs [])) = Return sample_readme
  /\ (exists kw,
        run sample_fs = (Return tt, [kw])
        /\ kw !! "long_description" = Some (PyStr sample_readme))
  /\ ~ (exists literal, forall fs' kw',
          kw' ∈ calls fs' -> kw' !! "long_description" = Some (PyStr literal)).
Proof.
  split; [reflexivity|].
  apply (long_description_from_readme sample_fs sample_readme).
  reflexivity.
Defined.

(** ** Failure *)

(** C8: when [open('README.txt').read()] raises, the manifest ends in that
    exception with the world as it was: [setup] has not been called.  A run
    either makes no call or one call that carries every keyword. *)
Theorem failure_registers_nothing (w : world) (e : exn) :
  fst (read_readme w) = Raise e ->
  setup_py w = (Raise e, w)
  /\ (forall fs,
        (outcome fs <> Return tt /\ calls fs = [])
        \/ (outcome fs = Return tt
            /\ exists kw, calls fs = [kw] /\ dom kw = keywords)).
Proof.
  intros Hfail. split.
  - revert Hfail.
    unfold setup_py, read_readme, bind, pure, raise, open, read, setup; simpl.
    destruct (files w "README.txt"); simpl; intros Hfail;
      try (injection Hfail as <-; reflexivity).
    discriminate.
  - intros fs.
    assert (Hrun : (outcome fs <> Return tt /\ calls fs = [])
                   \/ exists kw, outcome fs = Return tt /\ calls fs = [kw]).
    { run_cases fs.
      1-3: left; split; [discriminate|reflexivity].
      right. eexists. split; reflexivity. }
    destruct Hrun as [Hnone | [kw [Hreturn Hone]]]; [left; exact Hnone|].
    right. split; [exact Hreturn|].
    exists kw. split; [exact Hone|].
    apply (call_keywords fs). rewrite Hone.
    apply list_elem_of_singleton. reflexivity.
Qed.

Lemma failure_registers_nothing_witness :
  fst (read_readme garbled_world) = Raise (UnicodeDecodeError "README.txt")
  /\ setup_py garbled_world =
       (Raise (UnicodeDecodeError "README.txt"), garbled_world)
  /\ (forall fs,
        (outcome fs <> Return tt /\ calls fs = [])
        \/ (outcome fs = Return tt
            /\ exists kw, calls fs = [kw] /\ dom kw = keywords)).
Proof.
  split; [reflexivity|].
  apply (failure_registers_nothing
           garbled_world (UnicodeDecodeError "README.txt")).
  reflexivity.
Defined.

(** ** Determinism *)

(** Two calls made by runs of the manifest differ at most in their
    [long_description]. *)
Lemma calls_agree_off_long_description
    (fs1 fs2 : string -> node) (kw1 kw2 : kwargs) :
  kw1 ∈ calls fs1 -> kw2 ∈ calls fs2 ->
  delete "long_description" kw1 = delete "long_description" kw2.
Proof.
  run_cases fs1; intros Hcall1; the_call Hcall1.
  run_cases fs2; intros Hcall2; the_call Hcall2.
  reflexivity.
Qed.

(** ** The other arguments *)

(** X1: the call carries the author, the author's address, the licence file
    name and the one-line description written in the manifest, and its
    [url] is the PyPI page of the declared name. *)
Theorem metadata_declared (fs : string -> node) (kw : kwargs) :
  kw ∈ calls fs ->
  exists name,
    kw !! "name" = Some (PyStr name)
    /\ kw !! "url" =
         Some (PyStr ("http://pypi.python.org/pypi/" +:+ name +:+ "/"))
    /\ kw !! "author" = Some (PyStr "Juan L Gamella")
    /\ kw !! "author_email" = Some (PyStr "juangamella@gmail.com")
    /\ kw !! "license" = Some (PyStr "LICENSE.txt")
    /\ kw !! "description" =
         Some (PyStr "Sample from general structural causal models (SCMs)").
Proof.
  run_cases fs; intros Hcall; the_call Hcall.
  exists "sempler". repeat split; by_evaluation.
Qed.

Lemma metadata_declared_witness :
  sample_kw ∈ calls sample_fs
  /\ exists name,
       sample_kw !! "name" = Some (PyStr name)
       /\ sample_kw !! "url" =
            Some (PyStr ("http://pypi.python.org/pypi/" +:+ name +:+ "/"))
       /\ sample_kw !! "author" = Some (PyStr "Juan L Gamella")
       /\ sample_kw !! "author_email" = Some (PyStr "juangamella@gmail.com")
       /\ sample_kw !! "license" = Some (PyStr "LICENSE.txt")
       /\ sample_kw !! "description" =
            Some (PyStr
                    "Sample from general structural causal models (SCMs)").
Proof.
  split; [exact sample_called|].
  exact (metadata_declared sample_fs sample_kw sample_called).
Defined.

(** X5: the declared name is one of the declared packages, and every
    declared package is that package or nested in it: its first component
    is the name. *)
Theorem packages_under_name
    (fs : string -> node) (kw : kwargs) (package : string) :
  kw ∈ calls fs ->
  exists name names,
    kw !! "name" = Some (PyStr name)
    /\ kw !! "packages" = Some (PyList names)
    /\ name ∈ names
    /\ (package ∈ names -> top_level package = name).
Proof.
  run_cases fs; intros Hcall; the_call Hcall.
  exists "sempler", ["sempler"; "sempler.test"].
  split; [by_evaluation|]. split; [by_evaluation|].
  split; [apply elem_of_cons; left; reflexivity|].
  intros Hin.
  apply elem_of_cons in Hin as [-> | Hin]; [reflexivity|].
  apply list_elem_of_singleton in Hin as ->. reflexivity.
Qed.

Lemma packages_under_name_witness :
  sample_kw ∈ calls sample_fs
  /\ exists name names,
       sample_kw !! "name" = Some (PyStr name)
       /\ sample_kw !! "packages" = Some (PyList names)
       /\ name ∈ names
       /\ ("sempler.test" ∈ names -> top_level "sempler.test" = name).
Proof.
  split; [exact sample_called|].
  exact (packages_under_name sample_fs sample_kw "sempler.test"
           sample_called).
Defined.

(** X6: every declared requirement is pinned, no project is required
    twice, and the package does not require itself. *)
Theorem requirements_distinct (fs : string -> node) (kw : kwargs) :
  kw ∈ calls fs ->
  exists name requirements,
    kw !! "name" = Some (PyStr name)
    /\ kw !! "install_requires" = Some (PyList requirements)
    /\ length (required_projects requirements) = length requirements
    /\ NoDup (required_projects requirements)
    /\ name ∉ required_projects requirements.
Proof.
  run_cases fs; intros Hcall; the_call Hcall.
  exists "sempler",
    ["numpy==1.18.3"; "networkx==2.2"; "matplotlib==3.2.1"].
  split; [by_evaluation|]. split; [by_evaluation|].
  split; [reflexivity|].
  split; apply (bool_decide_unpack _); vm_compute; exact I.
Qed.

Lemma requirements_distinct_witness :
  sample_kw ∈ calls sample_fs
  /\ exists name requirements,
       sample_kw !! "name" = Some (PyStr name)
       /\ sample_kw !! "install_requires" = Some (PyList requirements)
       /\ length (required_projects requirements) = length requirements
       /\ NoDup (required_projects requirements)
       /\ name ∉ required_projects requirements.
Proof.
  split; [exact sample_called|].
  exact (requirements_distinct sample_fs sample_kw sample_called).
Defined.

(** ** Any interpreter *)

(** Unfold one evaluation by [py] over [d] and split on the import, on what
    [README.txt] holds and on whether its bytes decode. *)
Ltac python_cases py d :=
  unfold Python.run, Python.setup_py, Python.read_readme, Python.bind,
    Python.pure, Python.import_setup, Python.open, Python.read, Python.call;
  simpl;
  let e := fresh "e" in
  let lib := fresh "lib" in
  let Himport := fresh "Himport" in
  let data := fresh "data" in
  let Hreadme := fresh "Hreadme" in
  let text := fresh "text" in
  let Hdecode := fresh "Hdecode" in
  destruct (Python.distutils_core py) as [e|lib] eqn:Himport; simpl;
  [| destruct (d "README.txt") as [| | |data] eqn:Hreadme; simpl;
     [| | | destruct (Python.decode py data) as [text|] eqn:Hdecode; simpl ] ].

(** The case of an evaluation that ends in [open] or [read]: its exception
    is the one [open('README.txt').read()] raises, and no other disjunct
    applies. *)
Ltac raised_before_call lib :=
  split;
  [ intros [= <- <-]; right; left; exists lib; split; reflexivity
  | intros [[_ [=]] | [(? & _ & [= <- <-]) | (? & ? & ? & _ & [=] & _)]];
    reflexivity ].

Example universal_newlines_reads :
  universal_newlines
    (String "a" (String "013" (String "010" (String "b" (String "013"
      (String "c" (String "010" EmptyString)))))))
  = String "a" (String "010" (String "b" (String "010"
      (String "c" (String "010" EmptyString))))).
Proof. reflexivity. Qed.

(** Whatever [setup] does, the calls of one evaluation are those of the
    first model over the decoded file system. *)
Lemma calls_decoded
    (py : Python.interpreter) (d : Python.disk) (f : Python.callable) :
  Python.distutils_core py = inr f ->
  Python.called (snd (Python.run py d)) = calls (decoded py d).
Proof.
  intros Hsetup. unfold calls, run, decoded, setup_py, bind, pure, open, read,
    setup; simpl.
  revert Hsetup. python_cases py d; intros Hsetup; try discriminate;
    try reflexivity.
  destruct (lib _ d) as [[e|] d']; reflexivity.
Qed.

(** Over a readable [README.txt] a [setup] that exits makes the run end in
    its exception, after the call. *)
Example exit_after_call :
  exists kw,
    Python.run python_exiting (Python.only_readme (Python.Regular cafe))
    = (Python.Raised Python.InSetup
         (Python.SystemExit "error: no commands supplied"),
       Python.Machine (Python.only_readme (Python.Regular cafe)) [kw])
    /\ kw !! "long_description" = Some (PyStr (string_of_list_ascii cafe)).
Proof. eexists. split; [reflexivity|]. vm_compute. reflexivity. Qed.

(** ** Failure, under any interpreter *)

(** C6: without [README.txt] the evaluation of the manifest fails before
    any call of [setup], and when the import has succeeded it fails with
    the [FileNotFoundError] of [open].  Under every interpreter and over
    every file system an evaluation ends in an exception exactly when the
    import raises it, or [open('README.txt').read()] raises it, or the call
    of [setup] raises it; none is raised by a statement of the manifest. *)
Theorem failures_are_infrastructure
    (py : Python.interpreter) (d : Python.disk) :
  d "README.txt" = Python.Missing ->
  (exists o e, Python.run py d = (Python.Raised o e, Python.Machine d []))
  /\ (forall lib,
        Python.distutils_core py = inr lib ->
        fst (Python.run py d) =
          Python.Raised Python.InOpen (Python.FileNotFoundError "README.txt"))
  /\ (forall py' d' o e,
        fst (Python.run py' d') = Python.Raised o e <->
        (o = Python.InImport /\ Python.distutils_core py' = inl e)
        \/ (exists lib,
              Python.distutils_core py' = inr lib
              /\ fst (Python.read_readme py' (Python.Machine d' [])) =
                   Python.Raised o e)
        \/ (exists lib text kw,
              Python.distutils_core py' = inr lib
              /\ fst (Python.read_readme py' (Python.Machine d' [])) =
                   Python.Returned text
              /\ Python.called (snd (Python.run py' d')) = [kw]
              /\ kw !! "long_description" = Some (PyStr text)
              /\ fst (lib kw d') = Some e
              /\ o = Python.InSetup))
  /\ (forall py' d' e,
        fst (Python.run py' d') <> Python.Raised Python.InManifest e).
Proof.
  intros Hmissing. split; [|split; [|split]].
  - revert Hmissing. python_cases py d; intros Hmissing; try discriminate;
      eexists _, _; reflexivity.
  - intros lib0 Hlib. revert Hmissing Hlib.
    python_cases py d; intros Hmissing Hlib; try discriminate. reflexivity.
  - intros py' d' o e'. python_cases py' d'.
    + split.
      * intros [= <- <-]. left. split; reflexivity.
      * intros [[-> [= ->]] | [(? & [=] & _) | (? & ? & ? & [=] & _)]].
        reflexivity.
    + raised_before_call lib.
    + raised_before_call lib.
    + raised_before_call lib.
    + destruct (lib _ d') as [[raised|] d''] eqn:Hlib; simpl.
      * split.
        -- intros [= <- <-]. right; right. eexists lib, _, _.
           split; [reflexivity|]. split; [reflexivity|].
           split; [reflexivity|]. split; [by_evaluation|].
           split; [rewrite Hlib|]; reflexivity.
        -- intros [[_ [=]] | [(? & _ & [=])
                  | (? & ? & ? & [= <-] & _ & [= <-] & _ & Hcall & ->)]].
           rewrite Hlib in Hcall. injection Hcall as <-. reflexivity.
      * split; [discriminate|].
        intros [[_ [=]] | [(? & _ & [=])
               | (? & ? & ? & [= <-] & _ & [= <-] & _ & Hcall & _)]].
        rewrite Hlib in Hcall. discriminate.
    + raised_before_call lib.
  - intros py' d' e'. python_cases py' d'; try discriminate.
    destruct (lib _ d') as [[raised|] d'']; discriminate.
Qed.

Lemma failures_are_infrastructure_witness :
  Python.only_readme Python.Missing "README.txt" = Python.Missing
  /\ (exists o e,
        Python.run python_latin1 (Python.only_readme Python.Missing)
        = (Python.Raised o e,
           Python.Machine (Python.only_readme Python.Missing) []))
  /\ (forall lib,
        Python.distutils_core python_latin1 = inr lib ->
        fst (Python.run python_latin1 (Python.only_readme Python.Missing)) =
          Python.Raised Python.InOpen (Python.FileNotFoundError "README.txt"))
  /\ (forall py' d' o e,
        fst (Python.run py' d') = Python.Raised o e <->
        (o = Python.InImport /\ Python.distutils_core py' = inl e)
        \/ (exists lib,
              Python.distutils_core py' = inr lib
              /\ fst (Python.read_readme py' (Python.Machine d' [])) =
                   Python.Raised o e)
        \/ (exists lib text kw,
              Python.distutils_core py' = inr lib
              /\ fst (Python.read_readme py' (Python.Machine d' [])) =
                   Python.Returned text
              /\ Python.called (snd (Python.run py' d')) = [kw]
              /\ kw !! "long_description" = Some (PyStr text)
              /\ fst (lib kw d') = Some e
              /\ o = Python.InSetup))
  /\ (forall py' d' e,
        fst (Python.run py' d') <> Python.Raised Python.InManifest e).
Proof.
  split; [reflexivity|].
  apply (failures_are_infrastructure
           python_latin1 (Python.only_readme Python.Missing)).
  reflexivity.
Defined.

(** ** Determinism, under any interpreter *)

(** Two calls made by evaluations of the manifest differ at most in their
    [long_description]. *)
Lemma python_calls_agree_off_long_description
    (py1 py2 : Python.interpreter) (d1 d2 : Python.disk)
    (kw1 kw2 : kwargs) :
  kw1 ∈ Python.called (snd (Python.run py1 d1)) ->
  kw2 ∈ Python.called (snd (Python.run py2 d2)) ->
  delete "long_description" kw1 = delete "long_description" kw2.
Proof.
  python_cases py1 d1;
    try (intros Hcall1; apply elem_of_nil in Hcall1; contradiction).
  destruct (lib _ d1) as [[raised1|] d1']; simpl;
    intros Hcall1; apply list_elem_of_singleton in Hcall1; subst kw1.
  all: python_cases py2 d2;
    try (intros Hcall2; apply elem_of_nil in Hcall2; contradiction).
  all: destruct (lib0 _ d2) as [[raised2|] d2']; simpl;
    intros Hcall2; apply list_elem_of_singleton in Hcall2; subst kw2;
    reflexivity.
Qed.

(** C10 as stated fails: the file contents alone do not determine the call: over the same bytes
    of [README.txt], with the same [setup], the evaluation under ASCII
    raises in [read] and registers nothing, and the evaluation under
    ISO 8859-1 calls [setup]. *)
Lemma same_bytes_other_encoding :
  Python.distutils_core python_ascii = Python.distutils_core python_latin1
  /\ Python.run python_ascii (Python.only_readme (Python.Regular cafe))
     = (Python.Raised Python.InRead (Python.UnicodeDecodeError cafe),
        Python.Machine (Python.only_readme (Python.Regular cafe)) [])
  /\ (exists kw,
        Python.run python_latin1 (Python.only_readme (Python.Regular cafe))
        = (Python.Returned tt,
           Python.Machine (Python.only_readme (Python.Regular cafe)) [kw])
        /\ kw !! "long_description" =
             Some (PyStr (string_of_list_ascii cafe)))
  /\ ~ (forall py1 py2 d1 d2,
          d1 "README.txt" = d2 "README.txt" ->
          Python.called (snd (Python.run py1 d1))
          = Python.called (snd (Python.run py2 d2))).
Proof.
  split; [reflexivity|]. split; [reflexivity|]. split.
  - eexists. split; [reflexivity|]. by_evaluation.
  - intros Hsame.
    specialize (Hsame python_ascii python_latin1
                  (Python.only_readme (Python.Regular cafe))
                  (Python.only_readme (Python.Regular cafe)) eq_refl).
    discriminate Hsame.
Qed.

(** C10, amended: the text of [README.txt] depends on its bytes and on the
    decoder of the interpreter.  Two evaluations in which the import has
    succeeded, over the same bytes decoded alike, make the same calls of
    [setup], whatever else the file systems hold and whatever [setup]
    does; over bytes that decode there is one call, with the decoded text
    as [long_description]; and every other argument is the same in every
    call of every evaluation. *)
Theorem arguments_determined
    (py1 py2 : Python.interpreter) (d1 d2 : Python.disk)
    (lib1 lib2 : Python.callable) :
  Python.distutils_core py1 = inr lib1 ->
  Python.distutils_core py2 = inr lib2 ->
  d1 "README.txt" = d2 "README.txt" ->
  (forall data,
     d1 "README.txt" = Python.Regular data ->
     Python.decode py1 data = Python.decode py2 data) ->
  Python.called (snd (Python.run py1 d1))
  = Python.called (snd (Python.run py2 d2))
  /\ (forall data text,
        d1 "README.txt" = Python.Regular data ->
        Python.decode py1 data = Some text ->
        exists kw,
          Python.called (snd (Python.run py1 d1)) = [kw]
          /\ kw !! "long_description" =
               Some (PyStr (universal_newlines text)))
  /\ (forall py py' d d' kw kw' keyword,
        kw ∈ Python.called (snd (Python.run py d)) ->
        kw' ∈ Python.called (snd (Python.run py' d')) ->
        keyword <> "long_description" ->
        kw !! keyword = kw' !! keyword).
Proof.
  intros Himport1 Himport2 Hbytes Hdecode. split; [|split].
  - rewrite (calls_decoded py1 d1 lib1 Himport1).
    rewrite (calls_decoded py2 d2 lib2 Himport2).
    unfold calls, run, setup_py, bind, pure, open, read; simpl.
    unfold decoded. rewrite <- Hbytes.
    destruct (d1 "README.txt") as [| | |data] eqn:Hreadme; try reflexivity.
    rewrite <- (Hdecode data eq_refl).
    destruct (Python.decode py1 data); reflexivity.
  - intros data text Hdata Htext.
    rewrite (calls_decoded py1 d1 lib1 Himport1).
    unfold calls, run, setup_py, bind, pure, open, read, setup; simpl.
    unfold decoded. rewrite Hdata, Htext; simpl.
    eexists. split; [reflexivity|by_evaluation].
  - intros py py' d d' kw kw' keyword Hcall Hcall' Hother.
    rewrite <- (lookup_delete_ne kw "long_description" keyword)
      by congruence.
    rewrite <- (lookup_delete_ne kw' "long_description" keyword)
      by congruence.
    rewrite (python_calls_agree_off_long_description
               py py' d d' kw kw' Hcall Hcall').
    reflexivity.
Qed.

Lemma arguments_determined_witness :
  Python.distutils_core python_latin1 = inr Python.quiet_setup
  /\ Python.distutils_core python_exiting = inr Python.exiting_setup
  /\ Python.only_readme (Python.Regular cafe) "LICENSE.txt"
     <> with_license (Python.Regular cafe) "LICENSE.txt"
  /\ Python.only_readme (Python.Regular cafe) "README.txt"
     = with_license (Python.Regular cafe) "README.txt"
  /\ Python.called
       (snd (Python.run python_latin1
               (Python.only_readme (Python.Regular cafe))))
     = Python.called
         (snd (Python.run python_exiting
                 (with_license (Python.Regular cafe))))
  /\ (exists kw,
        Python.called
          (snd (Python.run python_latin1
                  (Python.only_readme (Python.Regular cafe)))) = [kw]
        /\ kw !! "long_description" =
             Some (PyStr (universal_newlines (string_of_list_ascii cafe))))
  /\ (forall py py' d d' kw kw' keyword,
        kw ∈ Python.called (snd (Python.run py d)) ->
        kw' ∈ Python.called (snd (Python.run py' d')) ->
        keyword <> "long_description" ->
        kw !! keyword = kw' !! keyword).
Proof.
  split; [reflexivity|]. split; [reflexivity|].
  split; [discriminate|]. split; [reflexivity|].
  destruct (arguments_determined
              python_latin1 python_exiting
              (Python.only_readme (Python.Regular cafe))
              (with_license (Python.Regular cafe))
              Python.quiet_setup Python.exiting_setup
              eq_refl eq_refl eq_refl (fun _ _ => eq_refl))
    as (Hsame & Hcall & Hother).
  split; [exact Hsame|]. split; [|exact Hother].
  exact (Hcall cafe (string_of_list_ascii cafe) eq_refl eq_refl).
Defined.

(** Without [distutils] the evaluation ends in the import, whatever
    [README.txt] holds: nothing is opened and nothing is called. *)
Example import_failure_comes_first (e : Python.entry) :
  Python.run
    (Python.Interpreter
       (inl (Python.ModuleNotFoundError "distutils")) Python.latin1_decoder)
    (Python.only_readme e)
  = (Python.Raised Python.InImport (Python.ModuleNotFoundError "distutils"),
     Python.Machine (Python.only_readme e) []).
Proof. reflexivity. Qed.
